(** * The GlowBlaster seed script, [scripts/seed_test_patterns.py]

    A shallow embedding of the script and the properties of its one
    loop: which requests leave the process, what is printed for each
    answer, and how the process ends.

    The script talks to three things it does not own: the command line
    (through [argparse]), the network (through [requests]) and the
    terminal (through [print]).  They are gathered in a [world]; the code
    is written in a state-and-exception monad [Py] over that world, so
    that [try: ... except Exception as e: ...] keeps its meaning, for
    what the network raises and for what a [print] raises. *)

From Stdlib Require Import List String Ascii ZArith Bool Lia.
From Stdlib Require Import DecimalString SpecFloat.
Import ListNotations.

Local Open Scope list_scope.
Local Open Scope string_scope.

(* ================================================================== *)
(** ** Python values *)

#[local] Set Warnings "-register-all".

(** What [resp.json()] can hand back, and what the script itself builds
    for [json=payload]: the images of JSON values under Python's decoder.
    A float is its IEEE 754 value (sign, mantissa, exponent).  A dict
    keeps its items in insertion order; the decoder never yields two
    items with one key, and [dict_get] reads the first one. *)
Inductive py_value : Type :=
| PyNone
| PyBool (b : bool)
| PyInt (z : Z)
| PyFloat (x : spec_float)
| PyStr (s : string)
| PyList (items : list py_value)
| PyDict (items : list (string * py_value)).

(** Truth value testing, as [if v:] does it. *)
Definition py_truthy (v : py_value) : bool :=
  match v with
  | PyNone => false
  | PyBool b => b
  | PyInt z => negb (Z.eqb z 0)
  | PyFloat x => match x with S754_zero _ => false | _ => true end
  | PyStr s => negb (String.eqb s "")
  | PyList items => match items with [] => false | _ :: _ => true end
  | PyDict items => match items with [] => false | _ :: _ => true end
  end.

(** [type(v).__name__]. *)
Definition py_type_name (v : py_value) : string :=
  match v with
  | PyNone => "NoneType"
  | PyBool _ => "bool"
  | PyInt _ => "int"
  | PyFloat _ => "float"
  | PyStr _ => "str"
  | PyList _ => "list"
  | PyDict _ => "dict"
  end.

(** Lookup in the items of a dict, with the default of [dict.get]. *)
Fixpoint dict_get (items : list (string * py_value)) (key : string)
    (default : py_value) : py_value :=
  match items with
  | [] => default
  | (k, v) :: rest =>
      if String.eqb k key then v else dict_get rest key default
  end.

Fixpoint dict_has (items : list (string * py_value)) (key : string) : bool :=
  match items with
  | [] => false
  | (k, _) :: rest => String.eqb k key || dict_has rest key
  end.

(** [str(n)] for an int. *)
Definition str_of_int (z : Z) : string := NilZero.string_of_int (Z.to_int z).

Definition join (sep : string) (parts : list string) : string :=
  String.concat sep parts.

Section Formatting.

(** [repr] of a str and of a float are builtins of the interpreter
    (quote selection and escapes; shortest round-trip digits).  The
    script only reaches them when the server puts a list or a dict
    under ["error"], or a float; they are taken as given. *)
Variable repr_str : string -> string.
Variable repr_float : spec_float -> string.

Fixpoint py_repr (v : py_value) : string :=
  match v with
  | PyNone => "None"
  | PyBool b => if b then "True" else "False"
  | PyInt z => str_of_int z
  | PyFloat x => repr_float x
  | PyStr s => repr_str s
  | PyList items =>
      "[" ++ join ", " (map py_repr items) ++ "]"
  | PyDict items =>
      "{" ++ join ", "
               (map (fun kv => repr_str (fst kv) ++ ": " ++ py_repr (snd kv))
                    items) ++ "}"
  end.

(** What an f-string replacement field [{v}] inserts: [format(v, "")],
    which is [str(v)]; only a str differs from its [repr]. *)
Definition py_format (v : py_value) : string :=
  match v with
  | PyStr s => s
  | _ => py_repr v
  end.

End Formatting.

(* ================================================================== *)
(** ** The fixed records *)

(** One item of [TEST_PATTERNS]: a dict literal with the two keys
    ["name"] and ["lcl"], both str. *)
Record pattern : Type := { name : string; lcl : string }.

Definition nl : string := String "010"%char EmptyString.
Definition dq : string := String "034"%char EmptyString.

(** A triple-quoted literal, line by line: the text starts right after
    the opening quotes and stops right before the closing ones, so the
    lines are joined by newlines and none follows the last. *)
Definition text (lines : list string) : string := join nl lines.

Definition solid_lcl (title colour : string) : list string :=
  [ "effect: solid";
    "name: " ++ dq ++ title ++ dq;
    "";
    "appearance:";
    "  color: " ++ colour;
    "  brightness: bright";
    "";
    "timing:";
    "  speed: medium" ].

Definition TEST_PATTERNS : list pattern :=
  [ {| name := "All Red";   lcl := text (solid_lcl "All Red" "red") |};
    {| name := "All Blue";  lcl := text (solid_lcl "All Blue" "blue") |};
    {| name := "All Green"; lcl := text (solid_lcl "All Green" "green") |};
    {| name := "All White"; lcl := text (solid_lcl "All White" "white") |};
    {| name := "Red, White, Blue";
       lcl := text
         [ "effect: chase";
           "name: " ++ dq ++ "Red, White, Blue" ++ dq;
           "";
           "behavior:";
           "  head_size: medium";
           "  tail_length: medium";
           "  tail_style: fade";
           "  count: triple";
           "";
           "appearance:";
           "  colors:";
           "    - red";
           "    - white";
           "    - blue";
           "  brightness: bright";
           "";
           "timing:";
           "  speed: medium";
           "";
           "spatial:";
           "  direction: forward" ] |} ].

(* ================================================================== *)
(** ** The world outside the script *)

(** One call [requests.post(url, headers=headers, json=payload)]. *)
Record post_call : Type := {
  url : string;
  headers : list (string * string);
  json : py_value
}.

(** The response object, as far as the script can look at it: its
    status code, and what calling [resp.json()] does. *)
Inductive json_result : Type :=
| JsonValue (v : py_value)
| JsonRaises (msg : string).

Record response : Type := {
  status_code : Z;
  json_method : json_result
}.

(** [requests.post] returns a response or raises.  What it and the JSON
    decoder raise derives from [Exception]; [msg] is [str(e)]. *)
Inductive post_result : Type :=
| PostReturns (resp : response)
| PostRaises (msg : string).

(** The namespace [parser.parse_args()] returns when it does: both
    options are required.  Otherwise argparse leaves through
    [SystemExit] (2 on a usage error, 0 after [--help]). *)
Record namespace : Type := { base_url : string; cookie : string }.

Inductive parse_result : Type :=
| ParseReturns (args : namespace)
| ParseExits (code : Z).

(** [command_line] is what argparse makes of [sys.argv]; [network]
    answers a call from the calls made before it and the call itself.

    [terminal] is [sys.stdout] as [print] meets it: from the texts
    already written and the text to write, [None] when the text is
    written and [Some msg] when the call raises (the text cannot be
    encoded, the stream is closed or broken) an exception whose [str]
    is [msg]; then nothing of the text is written.  What [print] raises
    derives from [Exception].  [flush_at_exit] tells, from the texts
    written, whether the interpreter's flush of [sys.stdout] at shutdown
    succeeds.

    [posted] records, oldest first, the calls made; [stdout] records,
    oldest first, the arguments of the script's own [print] calls that
    went through: one entry per call, which a newline inside the text
    spreads over several lines of the console.  What argparse writes is
    not recorded. *)
Record world : Type := {
  command_line : parse_result;
  network : list post_call -> post_call -> post_result;
  terminal : list string -> string -> option string;
  flush_at_exit : list string -> bool;
  posted : list post_call;
  stdout : list string
}.

(* ================================================================== *)
(** ** Statements that may raise *)

Inductive py_exception : Type :=
| PyException (msg : string)   (* any instance of Exception *)
| SystemExit (code : Z).       (* a BaseException, not an Exception *)

Inductive outcome (A : Type) : Type :=
| Returns (a : A)
| Raises (e : py_exception).
Arguments Returns {A} a.
Arguments Raises {A} e.

Definition Py (A : Type) : Type := world -> outcome A * world.

Definition ret {A} (a : A) : Py A := fun w => (Returns a, w).

Definition raise {A} (e : py_exception) : Py A := fun w => (Raises e, w).

Definition bind {A B} (m : Py A) (k : A -> Py B) : Py B :=
  fun w =>
    match m w with
    | (Returns a, w') => k a w'
    | (Raises e, w') => (Raises e, w')
    end.

Declare Scope py_scope.
Delimit Scope py_scope with py.
Notation "x <- m ;; k" := (bind m (fun x => k))
  (at level 61, m at next level, right associativity) : py_scope.
Notation "m ;; k" := (bind m (fun _ => k))
  (at level 61, right associativity) : py_scope.

(** [try: body / except Exception as e: handler e].  The state reached
    when the exception was raised is where the handler starts, and what
    the handler raises is not caught. *)
Definition try_except {A} (body : Py A) (handler : string -> Py A) : Py A :=
  fun w =>
    match body w with
    | (Raises (PyException msg), w') => handler msg w'
    | other => other
    end.

Definition log_line (line : string) (w : world) : world :=
  {| command_line := command_line w; network := network w;
     terminal := terminal w; flush_at_exit := flush_at_exit w;
     posted := posted w; stdout := (stdout w ++ [line])%list |}.

Definition log_post (call : post_call) (w : world) : world :=
  {| command_line := command_line w; network := network w;
     terminal := terminal w; flush_at_exit := flush_at_exit w;
     posted := (posted w ++ [call])%list; stdout := stdout w |}.

(** [print(line)]: the terminal takes the text, or the call raises. *)
Definition print (line : string) : Py unit :=
  fun w =>
    match terminal w (stdout w) line with
    | None => (Returns tt, log_line line w)
    | Some msg => (Raises (PyException msg), w)
    end.

(** The call is on the record whether or not an answer comes back. *)
Definition requests_post (url : string) (headers : list (string * string))
    (json : py_value) : Py response :=
  fun w =>
    let call := {| url := url; headers := headers; json := json |} in
    match network w (posted w) call with
    | PostReturns resp => (Returns resp, log_post call w)
    | PostRaises msg => (Raises (PyException msg), log_post call w)
    end.

(** [resp.json()]. *)
Definition resp_json (resp : response) : Py py_value :=
  match json_method resp with
  | JsonValue v => ret v
  | JsonRaises msg => raise (PyException msg)
  end.

(** [data.get(key, default)]: the method of a dict; on any other
    decoded value the attribute lookup raises AttributeError. *)
Definition get (data : py_value) (key : string) (default : py_value)
    : Py py_value :=
  match data with
  | PyDict items => ret (dict_get items key default)
  | other =>
      raise (PyException ("'" ++ py_type_name other
                              ++ "' object has no attribute 'get'"))
  end.

Definition parse_args : Py namespace :=
  fun w =>
    match command_line w with
    | ParseReturns args => (Returns args, w)
    | ParseExits code => (Raises (SystemExit code), w)
    end.

Definition len {A} (l : list A) : Z := Z.of_nat (List.length l).

(* ================================================================== *)
(** ** The script *)

Section Seeder.

Variable repr_str : string -> string.
Variable repr_float : spec_float -> string.

Local Open Scope py_scope.

Definition create_pattern (base_url cookie : string) (pattern : pattern)
    : Py bool :=
  let url := base_url ++ "/api/glowblaster/patterns" in
  let headers := [ ("Content-Type", "application/json");
                   ("Cookie", cookie) ] in
  let payload := PyDict [ ("name", PyStr (name pattern));
                          ("lcl", PyStr (lcl pattern)) ] in
  try_except
    (resp <- requests_post url headers payload ;;
     data <- resp_json resp ;;
     success <- get data "success" PyNone ;;
     if py_truthy success then
       print ("  Created: " ++ name pattern) ;;
       ret true
     else
       error <- get data "error" (PyStr "Unknown error") ;;
       print ("  Failed: " ++ name pattern ++ " - "
                ++ py_format repr_str repr_float error) ;;
       ret false)
    (fun e =>
       print ("  Error: " ++ name pattern ++ " - " ++ e) ;;
       ret false).

(** The [for] loop of [main], with the counter it carries. *)
Fixpoint seed_loop (base_url cookie : string) (patterns : list pattern)
    (success_count : Z) : Py Z :=
  match patterns with
  | [] => ret success_count
  | pattern :: rest =>
      created <- create_pattern base_url cookie pattern ;;
      seed_loop base_url cookie rest
        (if created then success_count + 1 else success_count)%Z
  end.

(** [main], with the module-level list as an argument. *)
Definition main_on (patterns : list pattern) : Py unit :=
  args <- parse_args ;;
  print ("Seeding " ++ str_of_int (len patterns) ++ " test patterns...") ;;
  print "" ;;
  success_count <- seed_loop (base_url args) (cookie args) patterns 0%Z ;;
  print "" ;;
  print ("Complete: " ++ str_of_int success_count ++ "/"
           ++ str_of_int (len patterns) ++ " patterns created").

Definition main : Py unit := main_on TEST_PATTERNS.

(** Running the file as a program: [main()] under the
    [__name__ == "__main__"] guard.  The interpreter's status is 0 when
    [main] returns, the code of a [SystemExit], and 1 on any other
    exception that reaches the top; a failed flush of [sys.stdout] at
    shutdown turns whichever it was into 120. *)
Definition run_on (patterns : list pattern) (w : world) : Z * world :=
  match main_on patterns w with
  | (result, w') =>
      (if flush_at_exit w' (stdout w')
       then match result with
            | Returns _ => 0%Z
            | Raises (SystemExit code) => code
            | Raises (PyException _) => 1%Z
            end
       else 120%Z,
       w')
  end.

Definition run : world -> Z * world := run_on TEST_PATTERNS.

End Seeder.

(* ================================================================== *)
(** ** Describing a run *)

(** The three console lines of the interface description, as the fate
    of one record. *)
Inductive report : Type :=
| Created
| Failed (error : string)
| Errored (msg : string).

Definition report_line (title : string) (rep : report) : string :=
  match rep with
  | Created => "  Created: " ++ title
  | Failed error => "  Failed: " ++ title ++ " - " ++ error
  | Errored msg => "  Error: " ++ title ++ " - " ++ msg
  end.

Definition counted (rep : report) : bool :=
  match rep with
  | Created => true
  | _ => false
  end.

(** The call the contract asks for. *)
Definition pattern_call (base_url cookie : string) (p : pattern) : post_call :=
  {| url := base_url ++ "/api/glowblaster/patterns";
     headers := [ ("Content-Type", "application/json"); ("Cookie", cookie) ];
     json := PyDict [ ("name", PyStr (name p)); ("lcl", PyStr (lcl p)) ] |}.

(** The answers the network gives to a series of calls made after
    [history]. *)
Fixpoint answers (net : list post_call -> post_call -> post_result)
    (history calls : list post_call) : list post_result :=
  match calls with
  | [] => []
  | call :: rest => net history call :: answers net (history ++ [call])%list rest
  end.

Section Reports.

Variable repr_str : string -> string.
Variable repr_float : spec_float -> string.

(** The error taxonomy: what one answer amounts to. *)
Definition report_of (answer : post_result) : report :=
  match answer with
  | PostRaises msg => Errored msg
  | PostReturns resp =>
      match json_method resp with
      | JsonRaises msg => Errored msg
      | JsonValue (PyDict items) =>
          if py_truthy (dict_get items "success" PyNone) then Created
          else Failed (py_format repr_str repr_float
                         (dict_get items "error" (PyStr "Unknown error")))
      | JsonValue other =>
          Errored ("'" ++ py_type_name other
                       ++ "' object has no attribute 'get'")
      end
  end.

Definition reports (net : list post_call -> post_call -> post_result)
    (history calls : list post_call) : list report :=
  map report_of (answers net history calls).

End Reports.

(** What becomes of a report on its way to the terminal.  When the
    terminal takes its line the report stands.  When it does not, a
    confirmation or a rejection turns into an error report carrying the
    message of the failed [print], if the terminal takes that line; a
    line of the handler that the terminal turns down leaves only the
    message of that last [print], on the right. *)
Definition delivered (term : list string -> string -> option string)
    (printed : list string) (title : string) (rep : report)
    : report + string :=
  match term printed (report_line title rep) with
  | None => inl rep
  | Some msg =>
      match rep with
      | Errored _ => inr msg
      | _ =>
          match term printed (report_line title (Errored msg)) with
          | None => inl (Errored msg)
          | Some msg' => inr msg'
          end
      end
  end.

Definition item_lines (patterns : list pattern) (reps : list report)
    : list string :=
  map (fun pr => report_line (name (fst pr)) (snd pr)) (combine patterns reps).

Definition successes (reps : list report) : Z :=
  len (filter counted reps).

(** The first and the last line of the console, and the console of a
    whole run between them. *)
Definition announcement (n : Z) : string :=
  "Seeding " ++ str_of_int n ++ " test patterns...".

Definition tally (k n : Z) : string :=
  "Complete: " ++ str_of_int k ++ "/" ++ str_of_int n ++ " patterns created".

Definition console (patterns : list pattern) (reps : list report)
    : list string :=
  announcement (len patterns) :: ""
    :: (item_lines patterns reps
          ++ [ ""; tally (successes reps) (len patterns) ])%list.

(** A world to which calls and lines have been added. *)
Definition extend (w : world) (calls : list post_call) (lines : list string)
    : world :=
  {| command_line := command_line w; network := network w;
     terminal := terminal w; flush_at_exit := flush_at_exit w;
     posted := (posted w ++ calls)%list; stdout := (stdout w ++ lines)%list |}.

(** The lines that carry a confirmation. *)
Definition created_lines (lines : list string) : Z :=
  len (filter (String.prefix "  Created: ") lines).

(** A world in which no [print] raises, whatever the text and whenever
    it comes. *)
Definition takes_every_text (w : world) : Prop :=
  forall (printed : list string) (text : string),
    terminal w printed text = None.

(** The texts of the two [print] calls that stand under the [try]: the
    confirmation and the rejection.  Every other [print] of the script
    (the announcement, the empty lines, the handler's error line, the
    tally) is under no [try], and its text is none of these. *)
Definition guarded (text : string) : bool :=
  String.prefix "  Created: " text || String.prefix "  Failed: " text.

(** A world in which no [print] outside the [try] raises: the terminal
    may turn down a confirmation or a rejection, and nothing else. *)
Definition takes_outside_try (w : world) : Prop :=
  forall (printed : list string) (text : string),
    guarded text = false -> terminal w printed text = None.

(** A text that is one of the three lines for the record of that
    name. *)
Definition about (title text : string) : Prop :=
  text = "  Created: " ++ title
  \/ (exists error, text = "  Failed: " ++ title ++ " - " ++ error)
  \/ (exists msg, text = "  Error: " ++ title ++ " - " ++ msg).

(* ================================================================== *)
(** ** Worlds to run the script in *)

(** A fresh process on a terminal that takes every text and flushes at
    the end: nothing posted, nothing printed. *)
Definition start (cl : parse_result)
    (net : list post_call -> post_call -> post_result) : world :=
  {| command_line := cl; network := net;
     terminal := fun _ _ => None; flush_at_exit := fun _ => true;
     posted := []; stdout := [] |}.

(** The same process on another terminal. *)
Definition on_terminal (term : list string -> string -> option string)
    (w : world) : world :=
  {| command_line := command_line w; network := network w;
     terminal := term; flush_at_exit := flush_at_exit w;
     posted := posted w; stdout := stdout w |}.

(** A network that plays a list of answers in order, one per call, and
    refuses the connection once the list is used up. *)
Definition scripted (script : list post_result)
    : list post_call -> post_call -> post_result :=
  fun history _ =>
    nth (List.length history) script (PostRaises "connection refused").

Definition always (answer : post_result)
    : list post_call -> post_call -> post_result :=
  fun _ _ => answer.

Definition json_answer (status : Z) (body : py_value) : post_result :=
  PostReturns {| status_code := status; json_method := JsonValue body |}.

Definition success_true : py_value := PyDict [ ("success", PyBool true) ].

Definition duplicate : py_value :=
  PyDict [ ("success", PyBool false); ("error", PyStr "duplicate") ].

Definition local_args : namespace :=
  {| base_url := "http://localhost:3000"; cookie := "session=abc" |}.

Definition first_pattern : pattern :=
  hd {| name := ""; lcl := "" |} TEST_PATTERNS.

(** Stand-ins for the two builtins, good enough for plain text. *)
Definition quote_repr (s : string) : string := "'" ++ s ++ "'".
Definition no_float_repr (x : spec_float) : string := "nan".



(** *** A terminal that encodes to ASCII

    [sys.stdout] with [encoding="ascii"] and [errors="strict"], as under
    [PYTHONIOENCODING=ascii]: a text with a character beyond 127 is
    turned down whole, with the message of the UnicodeEncodeError, which
    names the first stretch of such characters.  A character of a text
    is one [ascii] of the string, its code point below 256. *)
Definition is_ascii (ch : ascii) : bool := (nat_of_ascii ch <? 128)%nat.

Fixpoint first_non_ascii (text : string) (pos : nat)
    : option (nat * ascii * string) :=
  match text with
  | EmptyString => None
  | String ch rest =>
      if is_ascii ch then first_non_ascii rest (S pos)
      else Some (pos, ch, rest)
  end.

Fixpoint non_ascii_run (text : string) : nat :=
  match text with
  | EmptyString => 0%nat
  | String ch rest => if is_ascii ch then 0%nat else S (non_ascii_run rest)
  end.

Definition hex_digit (n : nat) : string :=
  nth n [ "0"; "1"; "2"; "3"; "4"; "5"; "6"; "7";
          "8"; "9"; "a"; "b"; "c"; "d"; "e"; "f" ] "".

Definition hex2 (ch : ascii) : string :=
  hex_digit (nat_of_ascii ch / 16) ++ hex_digit (nat_of_ascii ch mod 16).

Definition ascii_strict : list string -> string -> option string :=
  fun _ text =>
    match first_non_ascii text 0 with
    | None => None
    | Some (pos, ch, rest) =>
        Some
          ((match non_ascii_run rest with
            | O =>
                "'ascii' codec can't encode character '\x" ++ hex2 ch
                  ++ "' in position " ++ str_of_int (Z.of_nat pos)
            | S more =>
                "'ascii' codec can't encode characters in position "
                  ++ str_of_int (Z.of_nat pos) ++ "-"
                  ++ str_of_int (Z.of_nat (pos + S more))
            end)
             ++ ": ordinal not in range(128)")
    end.

(** Two texts with letters beyond ASCII: what a French system says of a
    refused connection, and what a server may say of a duplicate. *)
Definition e_acute : string := String "233"%char EmptyString.
Definition a_grave : string := String "224"%char EmptyString.

Definition refusee : string := "Connexion refus" ++ e_acute ++ "e".
Definition deja : string := "d" ++ e_acute ++ "j" ++ a_grave.

(** A terminal that turns down one text, with one message, and takes
    every other: a stream that could not take a write just then. *)
Definition chokes_on (bad msg : string)
    : list string -> string -> option string :=
  fun _ text => if String.eqb text bad then Some msg else None.

(** A process whose terminal encodes to ASCII. *)
Definition ascii_start (cl : parse_result)
    (net : list post_call -> post_call -> post_result) : world :=
  on_terminal ascii_strict (start cl net).

(* ================================================================== *)
(** * Properties *)

(** ** Bookkeeping on worlds and strings *)

Lemma extend_nothing (w : world) : extend w [] [] = w.
Proof.
  destruct w as [cl net term fl sent out]. unfold extend. simpl.
  now rewrite !app_nil_r.
Qed.

Lemma extend_logged (w : world) (call : post_call) (line : string)
    (calls : list post_call) (lines : list string) :
  extend (log_line line (log_post call w)) calls lines
  = extend w (call :: calls) (line :: lines).
Proof.
  unfold extend, log_line, log_post. simpl.
  now rewrite <- !app_assoc.
Qed.

Lemma extend_extend (w : world) (c1 c2 : list post_call)
    (l1 l2 : list string) :
  extend (extend w c1 l1) c2 l2 = extend w (c1 ++ c2)%list (l1 ++ l2)%list.
Proof.
  unfold extend. simpl. now rewrite !app_assoc.
Qed.

Lemma append_assoc (a b c : string) : (a ++ b) ++ c = a ++ (b ++ c).
Proof.
  induction a as [| ch a IH]; simpl; [reflexivity | now rewrite IH].
Qed.

Lemma prefix_append (s t : string) : String.prefix s (s ++ t) = true.
Proof.
  induction s as [| ch s IH]; simpl.
  - now destruct t.
  - destruct (ascii_dec ch ch) as [_ | Hne]; [exact IH | now elim Hne].
Qed.

Lemma successes_cons (rep : report) (reps : list report) (n : Z) :
  ((if counted rep then n + 1 else n) + successes reps
   = n + successes (rep :: reps))%Z.
Proof.
  unfold successes, len. cbn [filter].
  destruct (counted rep); cbn [List.length]; lia.
Qed.

Lemma successes_bounds (reps : list report) :
  (0 <= successes reps <= len reps)%Z.
Proof.
  unfold successes, len. pose proof (filter_length_le counted reps). lia.
Qed.

Lemma answers_length (net : list post_call -> post_call -> post_result)
    (calls history : list post_call) :
  List.length (answers net history calls) = List.length calls.
Proof.
  revert history.
  induction calls as [| call rest IH]; intro history; simpl;
    [reflexivity | now rewrite IH].
Qed.

Lemma start_takes_every_text (cl : parse_result)
    (net : list post_call -> post_call -> post_result) :
  takes_every_text (start cl net).
Proof.
  intros printed text. reflexivity.
Qed.

Lemma print_taken (line : string) (w : world) :
  terminal w (stdout w) line = None ->
  print line w = (Returns tt, log_line line w).
Proof.
  intro Htaken. unfold print. now rewrite Htaken.
Qed.

Section Properties.

Variable repr_str : string -> string.
Variable repr_float : spec_float -> string.

Local Notation "'create'" := (create_pattern repr_str repr_float).
Local Notation "'loop'" := (seed_loop repr_str repr_float).
Local Notation "'verdict'" := (report_of repr_str repr_float).

(** ** One record *)

(** Everything [create_pattern] does, in one equation: the call is
    logged, the answer is classified, and the report makes its way to
    the terminal; either one line is printed and the function returns,
    or the handler's own [print] has raised and nothing is printed. *)
Lemma create_pattern_run (b c : string) (p : pattern) (w : world) :
  create b c p w
  = match delivered (terminal w) (stdout w) (name p)
            (verdict (network w (posted w) (pattern_call b c p))) with
    | inl rep =>
        (Returns (counted rep),
         log_line (report_line (name p) rep)
           (log_post (pattern_call b c p) w))
    | inr msg =>
        (Raises (PyException msg), log_post (pattern_call b c p) w)
    end.
Proof.
  unfold create_pattern, try_except, bind, requests_post.
  fold (pattern_call b c p).
  destruct (network w (posted w) (pattern_call b c p)) as [resp | msg].
  - unfold report_of, resp_json.
    destruct (json_method resp) as [v | msg].
    + destruct v as [| flag | z | x | s | items | items];
        try (unfold get, raise, ret, delivered, print;
             cbn [log_post terminal stdout report_line py_type_name];
             match goal with
             | |- context [terminal w (stdout w) ?line] =>
                 destruct (terminal w (stdout w) line); reflexivity
             end).
      unfold get, ret.
      destruct (py_truthy (dict_get items "success" PyNone));
        unfold delivered, print; cbn [log_post terminal stdout report_line];
        match goal with
        | |- context [terminal w (stdout w) ?line] =>
            destruct (terminal w (stdout w) line) as [failure |];
              [| reflexivity]
        end;
        cbn [log_post terminal stdout];
        match goal with
        | |- context [terminal w (stdout w) ?line] =>
            destruct (terminal w (stdout w) line); reflexivity
        end.
    + unfold raise, delivered, print.
      cbn [log_post terminal stdout report_line].
      destruct (terminal w (stdout w) ("  Error: " ++ name p ++ " - " ++ msg));
        reflexivity.
  - unfold delivered, print.
    cbn [report_of log_post terminal stdout report_line].
    destruct (terminal w (stdout w) ("  Error: " ++ name p ++ " - " ++ msg));
      reflexivity.
Qed.

(** When the terminal takes the line of the report, that is the line
    printed. *)
Lemma create_pattern_printed (b c : string) (p : pattern) (w : world) :
  terminal w (stdout w)
    (report_line (name p)
       (verdict (network w (posted w) (pattern_call b c p)))) = None ->
  create b c p w
  = (Returns (counted (verdict (network w (posted w) (pattern_call b c p)))),
     log_line
       (report_line (name p)
          (verdict (network w (posted w) (pattern_call b c p))))
       (log_post (pattern_call b c p) w)).
Proof.
  intro Htaken. rewrite create_pattern_run. unfold delivered.
  now rewrite Htaken.
Qed.

(** ** The loop *)

Lemma seed_loop_run (b c : string) (patterns : list pattern) :
  forall (n : Z) (w : world),
    takes_every_text w ->
    loop b c patterns n w
    = (Returns
         (n + successes
                (reports repr_str repr_float (network w) (posted w)
                   (map (pattern_call b c) patterns)))%Z,
       extend w (map (pattern_call b c) patterns)
         (item_lines patterns
            (reports repr_str repr_float (network w) (posted w)
               (map (pattern_call b c) patterns)))).
Proof.
  induction patterns as [| p rest IH]; intros n w Htakes.
  - simpl. unfold ret, successes, len. simpl.
    now rewrite extend_nothing, Z.add_0_r.
  - cbn [seed_loop]. unfold bind at 1.
    rewrite create_pattern_printed by apply Htakes.
    rewrite IH by exact Htakes.
    cbn [map reports answers item_lines combine fst snd].
    cbn [log_line log_post network posted].
    rewrite extend_logged, successes_cons.
    reflexivity.
Qed.

(** ** The whole script *)

(** [main] from any world whose command line parses and whose terminal
    takes every text, on any list. *)
Lemma main_on_run_from (patterns : list pattern) (args : namespace)
    (w : world) :
  command_line w = ParseReturns args ->
  takes_every_text w ->
  main_on repr_str repr_float patterns w
  = (Returns tt,
     extend w
       (map (pattern_call (base_url args) (cookie args)) patterns)
       (console patterns
          (reports repr_str repr_float (network w) (posted w)
             (map (pattern_call (base_url args) (cookie args)) patterns)))).
Proof.
  intros Hcl Htakes. unfold main_on, bind, parse_args. rewrite Hcl.
  rewrite print_taken by apply Htakes.
  rewrite print_taken by apply Htakes.
  rewrite seed_loop_run by exact Htakes.
  rewrite print_taken by apply Htakes.
  rewrite print_taken by apply Htakes.
  cbn [log_line network posted stdout].
  unfold extend, log_line, console, announcement, tally.
  cbn [command_line network terminal flush_at_exit posted stdout].
  rewrite Z.add_0_l. cbn [app].
  rewrite <- !app_assoc. reflexivity.
Qed.

Lemma main_on_run (patterns : list pattern) (args : namespace)
    (net : list post_call -> post_call -> post_result) :
  main_on repr_str repr_float patterns (start (ParseReturns args) net)
  = (Returns tt,
     extend (start (ParseReturns args) net)
       (map (pattern_call (base_url args) (cookie args)) patterns)
       (console patterns
          (reports repr_str repr_float net []
             (map (pattern_call (base_url args) (cookie args)) patterns)))).
Proof.
  apply main_on_run_from; [reflexivity | apply start_takes_every_text].
Qed.

Lemma reports_length (net : list post_call -> post_call -> post_result)
    (history calls : list post_call) :
  List.length (reports repr_str repr_float net history calls)
  = List.length calls.
Proof.
  unfold reports. now rewrite length_map, answers_length.
Qed.

(** What a run of [main] leaves behind, for the five records. *)
Lemma main_run (args : namespace)
    (net : list post_call -> post_call -> post_result) :
  main repr_str repr_float (start (ParseReturns args) net)
  = (Returns tt,
     {| command_line := ParseReturns args; network := net;
        terminal := fun _ _ => None; flush_at_exit := fun _ => true;
        posted := map (pattern_call (base_url args) (cookie args))
                    TEST_PATTERNS;
        stdout := console TEST_PATTERNS
                    (reports repr_str repr_float net []
                       (map (pattern_call (base_url args) (cookie args))
                          TEST_PATTERNS)) |}).
Proof.
  unfold main. rewrite main_on_run. reflexivity.
Qed.

Lemma reports_five (b c : string)
    (net : list post_call -> post_call -> post_result)
    (history : list post_call) :
  List.length
    (reports repr_str repr_float net history
       (map (pattern_call b c) TEST_PATTERNS))
  = List.length TEST_PATTERNS.
Proof.
  now rewrite reports_length, length_map.
Qed.

(** ** Runs on a terminal that may turn texts down *)

Lemma report_line_shape (title : string) (rep : report) :
  about title (report_line title rep).
Proof.
  unfold about.
  destruct rep as [| error | msg]; cbn [report_line];
    [left | right; left; exists error | right; right; exists msg];
    reflexivity.
Qed.

Lemma every_text_outside_try (w : world) :
  takes_every_text w -> takes_outside_try w.
Proof.
  intros Htakes printed text _. apply Htakes.
Qed.

Lemma error_line_taken (w : world) (printed : list string)
    (title msg : string) :
  takes_outside_try w ->
  terminal w printed ("  Error: " ++ title ++ " - " ++ msg) = None.
Proof.
  intro Htakes. apply Htakes. reflexivity.
Qed.

(** The two ways [create_pattern] can end. *)
Lemma create_pattern_cases (b c : string) (p : pattern) (w : world) :
  (exists (created : bool) (text : string),
      create b c p w
      = (Returns created, log_line text (log_post (pattern_call b c p) w))
      /\ about (name p) text)
  \/ (exists msg failure : string,
         create b c p w
         = (Raises (PyException failure), log_post (pattern_call b c p) w)
         /\ terminal w (stdout w) ("  Error: " ++ name p ++ " - " ++ msg)
            = Some failure).
Proof.
  rewrite create_pattern_run. unfold delivered.
  destruct (terminal w (stdout w)
              (report_line (name p)
                 (verdict (network w (posted w) (pattern_call b c p)))))
    as [failure |] eqn:Hfirst.
  - destruct (verdict (network w (posted w) (pattern_call b c p)))
      as [| error | msg].
    + destruct (terminal w (stdout w)
                  (report_line (name p) (Errored failure)))
        as [failure' |] eqn:Hsecond.
      * right. exists failure, failure'. split; [reflexivity | exact Hsecond].
      * left. do 2 eexists. split; [reflexivity | apply report_line_shape].
    + destruct (terminal w (stdout w)
                  (report_line (name p) (Errored failure)))
        as [failure' |] eqn:Hsecond.
      * right. exists failure, failure'. split; [reflexivity | exact Hsecond].
      * left. do 2 eexists. split; [reflexivity | apply report_line_shape].
    + right. exists msg, failure. split; [reflexivity | exact Hfirst].
  - left. do 2 eexists. split; [reflexivity | apply report_line_shape].
Qed.

(** What a loop that returned has done. *)
Lemma seed_loop_returned (b c : string) (first : list pattern) :
  forall (n : Z) (w : world) (k : Z) (w1 : world),
    loop b c first n w = (Returns k, w1) ->
    exists texts : list string,
      w1 = extend w (map (pattern_call b c) first) texts
      /\ Forall2 (fun p text => about (name p) text) first texts
      /\ (n <= k <= n + len first)%Z.
Proof.
  induction first as [| p first IH]; intros n w k w1 Hrun.
  - cbn in Hrun. injection Hrun as <- <-. exists [].
    rewrite extend_nothing. unfold len. cbn.
    split; [reflexivity | split; [constructor | lia]].
  - cbn [seed_loop] in Hrun. unfold bind at 1 in Hrun.
    rewrite create_pattern_run in Hrun.
    destruct (delivered (terminal w) (stdout w) (name p)
                (verdict (network w (posted w) (pattern_call b c p))))
      as [rep | failure]; [| discriminate Hrun].
    apply IH in Hrun. destruct Hrun as (texts & -> & Hshape & Hk).
    exists (report_line (name p) rep :: texts).
    rewrite extend_logged. split; [reflexivity | split].
    + constructor; [apply report_line_shape | exact Hshape].
    + unfold len in *. cbn [List.length]. destruct (counted rep); lia.
Qed.

(** When no [print] outside the [try] raises, the loop returns. *)
Lemma seed_loop_contained (b c : string) (patterns : list pattern) :
  forall (n : Z) (w : world),
    takes_outside_try w ->
    exists (k : Z) (w1 : world), loop b c patterns n w = (Returns k, w1).
Proof.
  induction patterns as [| p rest IH]; intros n w Htakes.
  - exists n, w. reflexivity.
  - cbn [seed_loop]. unfold bind at 1.
    destruct (create_pattern_cases b c p w)
      as [(created & text & -> & _) | (msg & failure & _ & Hturned)].
    + apply IH. exact Htakes.
    + rewrite (error_line_taken w (stdout w) (name p) msg Htakes) in Hturned.
      discriminate Hturned.
Qed.


(** ** The console *)

Lemma console_last (patterns : list pattern) (reps : list report) :
  last (console patterns reps) ""
  = tally (successes reps) (len patterns).
Proof.
  unfold console.
  change (announcement (len patterns) :: ""
            :: (item_lines patterns reps
                  ++ [ ""; tally (successes reps) (len patterns) ])%list)
    with (([ announcement (len patterns); "" ] ++ item_lines patterns reps)
            ++ [ "" ] ++ [ tally (successes reps) (len patterns) ])%list.
  now rewrite app_assoc, last_last.
Qed.

Lemma created_item_lines (patterns : list pattern) :
  forall reps : list report,
    List.length reps = List.length patterns ->
    created_lines (item_lines patterns reps) = successes reps.
Proof.
  unfold created_lines, successes, item_lines.
  induction patterns as [| p rest IH]; intros [| rep reps] Hlen;
    try discriminate; [reflexivity |].
  injection Hlen as Hlen. specialize (IH reps Hlen).
  unfold len in *. cbn [combine map filter fst snd].
  destruct rep as [| error | msg]; cbn [report_line counted].
  - rewrite prefix_append. cbn [List.length]. lia.
  - replace (String.prefix "  Created: "
               ("  Failed: " ++ name p ++ " - " ++ error))
      with false by reflexivity.
    exact IH.
  - replace (String.prefix "  Created: "
               ("  Error: " ++ name p ++ " - " ++ msg))
      with false by reflexivity.
    exact IH.
Qed.

Lemma created_console (patterns : list pattern) (reps : list report) :
  List.length reps = List.length patterns ->
  created_lines (console patterns reps) = successes reps.
Proof.
  intro Hlen. rewrite <- (created_item_lines patterns reps Hlen).
  unfold created_lines, console, len.
  cbn [filter].
  replace (String.prefix "  Created: " (announcement (Z.of_nat (List.length patterns))))
    with false by reflexivity.
  replace (String.prefix "  Created: " "") with false by reflexivity.
  rewrite filter_app. cbn [filter].
  replace (String.prefix "  Created: "
             (tally (successes reps) (Z.of_nat (List.length patterns))))
    with false by reflexivity.
  now rewrite app_nil_r.
Qed.

(** ** Lookups in a decoded object *)

Lemma dict_get_present (items : list (string * py_value)) (key : string)
    (d1 d2 : py_value) :
  dict_has items key = true -> dict_get items key d1 = dict_get items key d2.
Proof.
  induction items as [| [k v] rest IH]; simpl; [discriminate |].
  destruct (String.eqb k key); simpl; auto.
Qed.

Lemma dict_get_absent (items : list (string * py_value)) (key : string)
    (default : py_value) :
  dict_has items key = false -> dict_get items key default = default.
Proof.
  induction items as [| [k v] rest IH]; simpl; [reflexivity |].
  destruct (String.eqb k key); simpl; [discriminate | auto].
Qed.

Lemma last_after_console (before : list string) (patterns : list pattern)
    (reps : list report) :
  last (before ++ console patterns reps)%list ""
  = tally (successes reps) (len patterns).
Proof.
  unfold console.
  replace (before
             ++ announcement (len patterns) :: ""
                  :: (item_lines patterns reps
                        ++ [ ""; tally (successes reps) (len patterns) ]))%list
    with ((before
             ++ announcement (len patterns) :: ""
                  :: (item_lines patterns reps ++ [ "" ]))
            ++ [ tally (successes reps) (len patterns) ])%list.
  - apply last_last.
  - rewrite <- app_assoc. cbn [app]. now rewrite <- app_assoc.
Qed.

(** ** The claims *)

(** C1.  Whatever the network answers, the calls [main] makes are, in
    the order of the list, one per record of [TEST_PATTERNS], of which
    there are five: each goes to [{base_url}/api/glowblaster/patterns]
    and its [json] argument is the dict with exactly the keys ["name"]
    and ["lcl"] holding the record's own strings.  Every [lcl] has
    newlines inside, and they travel as they are. *)
Theorem posts_carry_the_records (args : namespace)
    (net : list post_call -> post_call -> post_result) :
  posted (snd (main repr_str repr_float (start (ParseReturns args) net)))
  = map (fun p =>
           {| url := base_url args ++ "/api/glowblaster/patterns";
              headers := [ ("Content-Type", "application/json");
                           ("Cookie", cookie args) ];
              json := PyDict [ ("name", PyStr (name p));
                               ("lcl", PyStr (lcl p)) ] |})
      TEST_PATTERNS
  /\ List.length TEST_PATTERNS = 5%nat
  /\ Forall (fun p => exists before after, lcl p = before ++ nl ++ after)
       TEST_PATTERNS.
Proof.
  rewrite main_run. split; [reflexivity | split; [reflexivity |]].
  unfold TEST_PATTERNS.
  repeat (apply Forall_cons;
          [ first [ exists "effect: solid"; eexists; reflexivity
                  | exists "effect: chase"; eexists; reflexivity ] |]).
  apply Forall_nil.
Qed.


Lemma all_created (net : list post_call -> post_call -> post_result)
    (calls : list post_call) :
  (forall history call,
      exists status, net history call = json_answer status success_true) ->
  forall history,
    successes (reports repr_str repr_float net history calls) = len calls.
Proof.
  intros Hnet. unfold successes, reports, len.
  induction calls as [| call rest IH]; intro history; [reflexivity |].
  cbn [answers map]. destruct (Hnet history call) as [status ->].
  change (report_of repr_str repr_float (json_answer status success_true))
    with Created.
  cbn [filter counted List.length]. rewrite !Nat2Z.inj_succ, IH. reflexivity.
Qed.

Lemma main_last_line (args : namespace)
    (net : list post_call -> post_call -> post_result) :
  last (stdout (snd (main repr_str repr_float
                       (start (ParseReturns args) net)))) ""
  = "Complete: "
      ++ str_of_int
           (created_lines
              (stdout (snd (main repr_str repr_float
                              (start (ParseReturns args) net)))))
      ++ "/5 patterns created".
Proof.
  rewrite main_run. cbn [snd stdout].
  rewrite console_last, created_console by apply reports_five.
  reflexivity.
Qed.

(** C3, as amended.  The last thing [main] prints is the line
    ["Complete: <successes>/5 patterns created"], where <successes> is
    the number of confirmation lines printed before it, between 0 and
    5; when every response decodes to [{"success": true}] that line is
    ["Complete: 5/5 patterns created"]. *)
Theorem final_tally_line (args : namespace)
    (net : list post_call -> post_call -> post_result) :
  let w := snd (main repr_str repr_float (start (ParseReturns args) net)) in
  last (stdout w) ""
  = "Complete: " ++ str_of_int (created_lines (stdout w))
      ++ "/5 patterns created"
  /\ (0 <= created_lines (stdout w) <= 5)%Z
  /\ ((forall history call,
          exists status, net history call = json_answer status success_true)
      -> last (stdout w) "" = "Complete: 5/5 patterns created").
Proof.
  cbv zeta. split; [apply main_last_line | split].
  - rewrite main_run. cbn [snd stdout].
    rewrite created_console by apply reports_five.
    pose proof (successes_bounds
                  (reports repr_str repr_float net []
                     (map (pattern_call (base_url args) (cookie args))
                        TEST_PATTERNS))) as Hb.
    unfold len in Hb. rewrite reports_five in Hb. exact Hb.
  - intro Hnet. rewrite main_last_line.
    rewrite main_run. cbn [snd stdout].
    rewrite created_console by apply reports_five.
    rewrite (all_created net _ Hnet). reflexivity.
Qed.

(** ** One turn of the loop *)

Lemma seed_loop_step (b c : string) (p : pattern) (rest : list pattern)
    (n : Z) (w : world) :
  terminal w (stdout w)
    (report_line (name p)
       (verdict (network w (posted w) (pattern_call b c p)))) = None ->
  loop b c (p :: rest) n w
  = loop b c rest
      (if counted (verdict (network w (posted w) (pattern_call b c p)))
       then n + 1 else n)%Z
      (log_line
         (report_line (name p)
            (verdict (network w (posted w) (pattern_call b c p))))
         (log_post (pattern_call b c p) w)).
Proof.
  intro Htaken. cbn [seed_loop]. unfold bind at 1.
  now rewrite create_pattern_printed.
Qed.

(** C4, as amended.  When [requests.post] raises, or [resp.json()]
    does, with message [msg], the exception is caught in
    [create_pattern]; provided the handler's own
    [print("  Error: <name> - <msg>")] goes through, that line is
    printed, the result is [False], and the loop goes on with the
    remaining records and the counter it had; it posts every one of them
    when no [print] outside the [try] raises. *)
Theorem exception_is_contained (b c : string) (p : pattern) (w : world)
    (msg : string) :
  (network w (posted w) (pattern_call b c p) = PostRaises msg
   \/ exists status,
        network w (posted w) (pattern_call b c p)
        = PostReturns {| status_code := status;
                         json_method := JsonRaises msg |}) ->
  terminal w (stdout w) ("  Error: " ++ name p ++ " - " ++ msg) = None ->
  create b c p w
  = (Returns false,
     log_line ("  Error: " ++ name p ++ " - " ++ msg)
       (log_post (pattern_call b c p) w))
  /\ forall (rest : list pattern) (n : Z),
       loop b c (p :: rest) n w
       = loop b c rest n
           (log_line ("  Error: " ++ name p ++ " - " ++ msg)
              (log_post (pattern_call b c p) w))
       /\ (takes_outside_try w ->
           (exists k, fst (loop b c (p :: rest) n w) = Returns k)
           /\ posted (snd (loop b c (p :: rest) n w))
              = (posted w
                   ++ pattern_call b c p :: map (pattern_call b c) rest)%list).
Proof.
  intros Hraise Htaken.
  assert (Hrep : verdict (network w (posted w) (pattern_call b c p))
                 = Errored msg).
  { destruct Hraise as [-> | [status ->]]; reflexivity. }
  split.
  - rewrite create_pattern_printed; rewrite Hrep; [reflexivity | exact Htaken].
  - intros rest n. split.
    + rewrite seed_loop_step; rewrite Hrep; [reflexivity | exact Htaken].
    + intro Htakes.
      destruct (seed_loop_contained b c (p :: rest) n w Htakes)
        as (k & w1 & Hrun).
      rewrite Hrun. split; [exists k; reflexivity |].
      destruct (seed_loop_returned b c (p :: rest) n w k w1 Hrun)
        as (texts & -> & _). reflexivity.
Qed.


(** C6, as amended.  When the response decodes to an object whose
    ["success"] is missing or falsy, the record is never counted:
    [create_pattern] does not return [True].  The line it sets out to
    print is ["  Failed: <name> - "] followed by the value under
    ["error"] when the object has that key (the text itself when it is a
    str, Python's [str] of it otherwise: [None], [True], the digits of an
    int, the bracketed items of a list or an object), and by
    ["Unknown error"] when it has not.  When the terminal takes that
    line it is the one printed, the result is [False] and the loop goes
    on with its counter unchanged.  When that [print] raises, the same
    handler catches it and the line printed, if the terminal takes it,
    is ["  Error: <name> - "] followed by the message of the failed
    [print]; the result is [False] again.  The number after the slash in
    the tally of a run of [main] is 5 whatever the answers were. *)
Theorem falsy_success_is_a_failure (b c : string) (p : pattern) (w : world)
    (status : Z) (items : list (string * py_value)) :
  network w (posted w) (pattern_call b c p)
  = json_answer status (PyDict items) ->
  py_truthy (dict_get items "success" PyNone) = false ->
  fst (create b c p w) <> Returns true
  /\ (terminal w (stdout w)
        ("  Failed: " ++ name p ++ " - "
           ++ py_format repr_str repr_float
                (dict_get items "error" (PyStr "Unknown error"))) = None ->
      exists line : string,
        create b c p w
        = (Returns false, log_line line (log_post (pattern_call b c p) w))
        /\ (dict_has items "error" = true ->
            line = "  Failed: " ++ name p ++ " - "
                     ++ py_format repr_str repr_float
                          (dict_get items "error" PyNone))
        /\ (forall e : string,
               dict_has items "error" = true ->
               dict_get items "error" PyNone = PyStr e ->
               line = "  Failed: " ++ name p ++ " - " ++ e)
        /\ (dict_has items "error" = true ->
            dict_get items "error" PyNone = PyNone ->
            line = "  Failed: " ++ name p ++ " - None")
        /\ (forall flag : bool,
               dict_has items "error" = true ->
               dict_get items "error" PyNone = PyBool flag ->
               line = "  Failed: " ++ name p ++ " - "
                        ++ (if flag then "True" else "False"))
        /\ (forall z : Z,
               dict_has items "error" = true ->
               dict_get items "error" PyNone = PyInt z ->
               line = "  Failed: " ++ name p ++ " - " ++ str_of_int z)
        /\ (forall vs : list py_value,
               dict_has items "error" = true ->
               dict_get items "error" PyNone = PyList vs ->
               line = "  Failed: " ++ name p ++ " - "
                        ++ "[" ++ join ", " (map (py_repr repr_str repr_float) vs)
                        ++ "]")
        /\ (dict_has items "error" = false ->
            line = "  Failed: " ++ name p ++ " - Unknown error")
        /\ (forall (rest : list pattern) (n : Z),
               loop b c (p :: rest) n w
               = loop b c rest n
                   (log_line line (log_post (pattern_call b c p) w))))
  /\ (forall failure : string,
         terminal w (stdout w)
           ("  Failed: " ++ name p ++ " - "
              ++ py_format repr_str repr_float
                   (dict_get items "error" (PyStr "Unknown error")))
         = Some failure ->
         terminal w (stdout w) ("  Error: " ++ name p ++ " - " ++ failure)
         = None ->
         create b c p w
         = (Returns false,
            log_line ("  Error: " ++ name p ++ " - " ++ failure)
              (log_post (pattern_call b c p) w)))
  /\ (forall (args : namespace)
             (net : list post_call -> post_call -> post_result),
         exists k : Z,
           last (stdout (snd (main repr_str repr_float
                                (start (ParseReturns args) net)))) ""
           = "Complete: " ++ str_of_int k ++ "/5 patterns created").
Proof.
  intros Hnet Hfalsy.
  assert (Hrep : verdict (network w (posted w) (pattern_call b c p))
                 = Failed (py_format repr_str repr_float
                             (dict_get items "error" (PyStr "Unknown error")))).
  { rewrite Hnet. unfold json_answer, report_of. cbn [json_method].
    now rewrite Hfalsy. }
  split; [| split; [| split]].
  - rewrite create_pattern_run, Hrep. unfold delivered.
    cbn [report_line].
    destruct (terminal w (stdout w) _) as [failure |];
      [destruct (terminal w (stdout w) _) |]; cbn; discriminate.
  - intro Htaken. eexists.
    split; [rewrite create_pattern_printed; rewrite Hrep;
            [reflexivity | exact Htaken] |].
    cbn [report_line].
    assert (Hpresent :
              dict_has items "error" = true ->
              dict_get items "error" (PyStr "Unknown error")
              = dict_get items "error" PyNone)
      by apply dict_get_present.
    repeat split.
    + intro Hhas. now rewrite Hpresent.
    + intros e Hhas He. now rewrite Hpresent, He.
    + intros Hhas He. now rewrite Hpresent, He.
    + intros flag Hhas He. now rewrite Hpresent, He.
    + intros z Hhas He. now rewrite Hpresent, He.
    + intros vs Hhas He. now rewrite Hpresent, He.
    + intro Hhas. now rewrite dict_get_absent.
    + intros rest n.
      rewrite seed_loop_step; rewrite Hrep; [reflexivity | exact Htaken].
  - intros failure Hfailed Htaken.
    rewrite create_pattern_run, Hrep. unfold delivered.
    cbn [report_line]. now rewrite Hfailed, Htaken.
  - intros args net. eexists. apply main_last_line.
Qed.

(** C7.  Were the list empty, the run would print
    ["Seeding 0 test patterns..."], two empty lines and the tally
    ["Complete: 0/0 patterns created"], make no call, and exit with 0. *)
Theorem empty_list_run (args : namespace)
    (net : list post_call -> post_call -> post_result) :
  run_on repr_str repr_float [] (start (ParseReturns args) net)
  = (0%Z,
     {| command_line := ParseReturns args; network := net;
        terminal := fun _ _ => None; flush_at_exit := fun _ => true;
        posted := [];
        stdout := [ "Seeding 0 test patterns..."; ""; "";
                    "Complete: 0/0 patterns created" ] |})
  /\ last (stdout (snd (run_on repr_str repr_float []
                          (start (ParseReturns args) net)))) ""
     = "Complete: " ++ "0/0 patterns created".
Proof.
  split; reflexivity.
Qed.




Lemma create_pattern_posted (b c : string) (p : pattern) (w : world) :
  posted (snd (create b c p w))
  = (posted w ++ [ pattern_call b c p ])%list.
Proof.
  rewrite create_pattern_run.
  destruct (delivered (terminal w) (stdout w) (name p)
              (verdict (network w (posted w) (pattern_call b c p))));
    reflexivity.
Qed.

(** C10.  The URL of the call is the base URL followed by
    ["/api/glowblaster/patterns"], nothing else: a base URL that ends in
    a slash gives a URL that ends in ["//api/glowblaster/patterns"]. *)
Theorem url_is_concatenation (b c : string) (p : pattern) (w : world) :
  map url (posted (snd (create b c p w)))
  = app (map url (posted w)) [ b ++ "/api/glowblaster/patterns" ]
  /\ map url (posted (snd (create (b ++ "/") c p w)))
     = app (map url (posted w)) [ b ++ "//api/glowblaster/patterns" ].
Proof.
  rewrite !create_pattern_posted.
  rewrite !map_app. cbn [map pattern_call url].
  now rewrite append_assoc.
Qed.

End Properties.

(* ================================================================== *)
(** ** The claims at work *)



(** C3 as first stated does not hold: with every answer
    [{"success": true}], the last line printed is not
    ["5/5 patterns created"], and no line printed is. *)
Lemma tally_line_is_labelled :
  (forall history call,
      always (json_answer 200 success_true) history call
      = json_answer 200 success_true)
  /\ last (stdout (snd (main quote_repr no_float_repr
                          (start (ParseReturns local_args)
                             (always (json_answer 200 success_true))))))
          ""
     <> "5/5 patterns created"
  /\ ~ In "5/5 patterns created"
         (stdout (snd (main quote_repr no_float_repr
                         (start (ParseReturns local_args)
                            (always (json_answer 200 success_true)))))).
Proof.
  split; [reflexivity |].
  vm_compute. split; [discriminate | intuition discriminate].
Qed.

Lemma final_tally_line_all_created :
  last (stdout (snd (main quote_repr no_float_repr
                       (start (ParseReturns local_args)
                          (always (json_answer 200 success_true))))))
       ""
  = "Complete: 5/5 patterns created".
Proof.
  apply (final_tally_line quote_repr no_float_repr local_args
           (always (json_answer 200 success_true))).
  intros history call. exists 200%Z. reflexivity.
Defined.

(** C4 as first stated does not hold.  On the ASCII terminal, the
    refusal is caught, but the [print] of its error line raises in the
    handler: [create_pattern] does not return [False], it raises; no
    error line is printed; and [main] stops after this first call. *)
Lemma handler_print_raises_out :
  create_pattern quote_repr no_float_repr "http://localhost:3000"
    "session=abc" first_pattern
    (ascii_start (ParseReturns local_args) (always (PostRaises refusee)))
  = (Raises
       (PyException
          ("'ascii' codec can't encode character '\xe9' in position 34"
             ++ ": ordinal not in range(128)")),
     {| command_line := ParseReturns local_args;
        network := always (PostRaises refusee);
        terminal := ascii_strict; flush_at_exit := fun _ => true;
        posted := [ pattern_call "http://localhost:3000" "session=abc"
                      first_pattern ];
        stdout := [] |})
  /\ fst (create_pattern quote_repr no_float_repr "http://localhost:3000"
            "session=abc" first_pattern
            (ascii_start (ParseReturns local_args)
               (always (PostRaises refusee))))
     <> Returns false
  /\ posted (snd (main quote_repr no_float_repr
                    (ascii_start (ParseReturns local_args)
                       (always (PostRaises refusee)))))
     = [ pattern_call "http://localhost:3000" "session=abc" first_pattern ].
Proof.
  split; [reflexivity | split; [vm_compute; discriminate | reflexivity]].
Qed.

(** A timeout on the first record: one error line, result [False]. *)
Lemma exception_is_contained_timeout :
  create_pattern quote_repr no_float_repr "http://localhost:3000"
    "session=abc" first_pattern
    (start (ParseReturns local_args) (always (PostRaises "timed out")))
  = (Returns false,
     {| command_line := ParseReturns local_args;
        network := always (PostRaises "timed out");
        terminal := fun _ _ => None; flush_at_exit := fun _ => true;
        posted := [ pattern_call "http://localhost:3000" "session=abc"
                      first_pattern ];
        stdout := [ "  Error: All Red - timed out" ] |}).
Proof.
  apply (exception_is_contained quote_repr no_float_repr
           "http://localhost:3000" "session=abc" first_pattern
           (start (ParseReturns local_args) (always (PostRaises "timed out")))
           "timed out").
  - left. reflexivity.
  - reflexivity.
Defined.


(** The confirmations of the five records are plain ASCII: a terminal
    that fails on encoding alone takes them all. *)
Remark fixed_confirmations_are_ascii :
  Forall (fun p => forall printed : list string,
              ascii_strict printed ("  Created: " ++ name p) = None)
    TEST_PATTERNS.
Proof.
  repeat (apply Forall_cons; [intro printed; reflexivity |]).
  apply Forall_nil.
Qed.

(** C6 as first stated does not hold.  On the ASCII terminal, a
    rejection whose text has letters beyond ASCII is not printed: the
    [print] of the rejection raises inside the [try], and the line that
    comes out is the error line with the codec's message. *)
Lemma rejection_printed_as_error :
  create_pattern quote_repr no_float_repr "http://localhost:3000"
    "session=abc" first_pattern
    (ascii_start (ParseReturns local_args)
       (always (json_answer 200
                  (PyDict [ ("success", PyBool false);
                            ("error", PyStr deja) ]))))
  = (Returns false,
     {| command_line := ParseReturns local_args;
        network :=
          always (json_answer 200
                    (PyDict [ ("success", PyBool false);
                              ("error", PyStr deja) ]));
        terminal := ascii_strict; flush_at_exit := fun _ => true;
        posted := [ pattern_call "http://localhost:3000" "session=abc"
                      first_pattern ];
        stdout :=
          [ "  Error: All Red - 'ascii' codec can't encode character "
              ++ "'\xe9' in position 21: ordinal not in range(128)" ] |})
  /\ ~ In ("  Failed: All Red - " ++ deja)
         (stdout (snd (create_pattern quote_repr no_float_repr
                         "http://localhost:3000" "session=abc" first_pattern
                         (ascii_start (ParseReturns local_args)
                            (always (json_answer 200
                                       (PyDict [ ("success", PyBool false);
                                                 ("error", PyStr deja) ]))))))).
Proof.
  split; [reflexivity |].
  vm_compute. intuition discriminate.
Qed.

(** The duplicate of the specification, then a list and an object under
    ["error"], as Python writes them. *)
Lemma falsy_success_is_a_failure_duplicate :
  stdout (snd (create_pattern quote_repr no_float_repr
                 "http://localhost:3000" "session=abc" first_pattern
                 (start (ParseReturns local_args)
                    (always (json_answer 200 duplicate)))))
  = [ "  Failed: All Red - duplicate" ]
  /\ stdout (snd (create_pattern quote_repr no_float_repr
                    "http://localhost:3000" "session=abc" first_pattern
                    (start (ParseReturns local_args)
                       (always (json_answer 200
                                  (PyDict
                                     [ ("error",
                                        PyList [ PyInt 1; PyNone;
                                                 PyBool true;
                                                 PyStr "x" ]) ]))))))
     = [ "  Failed: All Red - [1, None, True, 'x']" ]
  /\ stdout (snd (create_pattern quote_repr no_float_repr
                    "http://localhost:3000" "session=abc" first_pattern
                    (start (ParseReturns local_args)
                       (always (json_answer 200
                                  (PyDict
                                     [ ("success", PyInt 0);
                                       ("error",
                                        PyDict [ ("code", PyInt (-7));
                                                 ("fields",
                                                  PyList [ PyStr "name" ])
                                               ]) ]))))))
     = [ "  Failed: All Red - {'code': -7, 'fields': ['name']}" ].
Proof.
  split; [| split].
  - destruct (proj1 (proj2
                (falsy_success_is_a_failure quote_repr no_float_repr
                   "http://localhost:3000" "session=abc" first_pattern
                   (start (ParseReturns local_args)
                      (always (json_answer 200 duplicate)))
                   200%Z
                   [ ("success", PyBool false); ("error", PyStr "duplicate") ]
                   eq_refl eq_refl)) eq_refl)
      as (line & Hrun & _ & Hstr & _).
    rewrite Hrun, (Hstr "duplicate" eq_refl eq_refl). reflexivity.
  - destruct (proj1 (proj2
                (falsy_success_is_a_failure quote_repr no_float_repr
                   "http://localhost:3000" "session=abc" first_pattern
                   (start (ParseReturns local_args)
                      (always (json_answer 200
                                 (PyDict
                                    [ ("error",
                                       PyList [ PyInt 1; PyNone; PyBool true;
                                                PyStr "x" ]) ]))))
                   200%Z
                   [ ("error",
                      PyList [ PyInt 1; PyNone; PyBool true; PyStr "x" ]) ]
                   eq_refl eq_refl)) eq_refl)
      as (line & Hrun & _ & _ & _ & _ & _ & Hlist & _).
    rewrite Hrun, (Hlist _ eq_refl eq_refl). reflexivity.
  - destruct (proj1 (proj2
                (falsy_success_is_a_failure quote_repr no_float_repr
                   "http://localhost:3000" "session=abc" first_pattern
                   (start (ParseReturns local_args)
                      (always (json_answer 200
                                 (PyDict
                                    [ ("success", PyInt 0);
                                      ("error",
                                       PyDict [ ("code", PyInt (-7));
                                                ("fields",
                                                 PyList [ PyStr "name" ]) ])
                                    ]))))
                   200%Z
                   [ ("success", PyInt 0);
                     ("error",
                      PyDict [ ("code", PyInt (-7));
                               ("fields", PyList [ PyStr "name" ]) ]) ]
                   eq_refl eq_refl)) eq_refl)
      as (line & Hrun & Hpresent & _).
    rewrite Hrun, (Hpresent eq_refl). reflexivity.
Defined.




(** ** Two runs, start to end *)

(** Five records, five fates: created, rejected, a body that is not an
    object, a body that is not JSON, no answer at all. *)
Example mixed_run :
  run quote_repr no_float_repr
    (start (ParseReturns local_args)
       (scripted
          [ json_answer 201 success_true;
            json_answer 409 duplicate;
            json_answer 200 (PyList []);
            PostReturns {| status_code := 502;
                           json_method := JsonRaises "Expecting value" |};
            PostRaises "timed out" ]))
  = (0%Z,
     {| command_line := ParseReturns local_args;
        network :=
          scripted
            [ json_answer 201 success_true;
              json_answer 409 duplicate;
              json_answer 200 (PyList []);
              PostReturns {| status_code := 502;
                             json_method := JsonRaises "Expecting value" |};
              PostRaises "timed out" ];
        terminal := fun _ _ => None; flush_at_exit := fun _ => true;
        posted := map (pattern_call "http://localhost:3000" "session=abc")
                    TEST_PATTERNS;
        stdout :=
          [ "Seeding 5 test patterns...";
            "";
            "  Created: All Red";
            "  Failed: All Blue - duplicate";
            "  Error: All Green - 'list' object has no attribute 'get'";
            "  Error: All White - Expecting value";
            "  Error: Red, White, Blue - timed out";
            "";
            "Complete: 1/5 patterns created" ] |}).
Proof.
  reflexivity.
Qed.

(** When argparse turns the command line down, nothing is printed by
    the script, nothing is posted, and the exit status is argparse's. *)
Remark rejected_command_line (code : Z)
    (net : list post_call -> post_call -> post_result) :
  run quote_repr no_float_repr (start (ParseExits code) net)
  = (code, start (ParseExits code) net).
Proof.
  reflexivity.
Qed.

(* ================================================================== *)
(** * Further properties of the script *)


Lemma created_line_differs (title : string) (rep : report) :
  counted rep = false ->
  report_line title rep <> "  Created: " ++ title.
Proof.
  destruct rep as [| error | msg]; cbn [counted report_line]; intros H E;
    [discriminate H | cbn in E; discriminate E | cbn in E; discriminate E].
Qed.

Section Further.

Variable repr_str : string -> string.
Variable repr_float : spec_float -> string.

Local Notation "'create'" := (create_pattern repr_str repr_float).
Local Notation "'loop'" := (seed_loop repr_str repr_float).
Local Notation "'verdict'" := (report_of repr_str repr_float).
Local Notation "'main_over'" := (main_on repr_str repr_float).

(** X1.  A body that decodes to something other than an object (a
    list, a string, a number, a boolean, null) is not a rejection but an
    error: reading [data.get] fails, the handler prints
    ["  Error: <name> - '<type>' object has no attribute 'get'"] when the
    terminal takes that line, and the result is [False]. *)
Theorem non_object_body_is_an_error (b c : string) (p : pattern) (w : world)
    (status : Z) (v : py_value) :
  network w (posted w) (pattern_call b c p) = json_answer status v ->
  (forall items, v <> PyDict items) ->
  terminal w (stdout w)
    ("  Error: " ++ name p ++ " - '" ++ py_type_name v
       ++ "' object has no attribute 'get'") = None ->
  create b c p w
  = (Returns false,
     log_line
       ("  Error: " ++ name p ++ " - '" ++ py_type_name v
          ++ "' object has no attribute 'get'")
       (log_post (pattern_call b c p) w)).
Proof.
  intros Hnet Hnot Htaken.
  assert (Hrep : verdict (network w (posted w) (pattern_call b c p))
                 = Errored ("'" ++ py_type_name v
                                ++ "' object has no attribute 'get'")).
  { rewrite Hnet. unfold json_answer, report_of. cbn [json_method].
    destruct v as [| flag | z | x | s | items | items]; try reflexivity.
    now elim (Hnot items). }
  rewrite create_pattern_printed; rewrite Hrep; [reflexivity | exact Htaken].
Qed.

(** X2.  Whatever the network and the terminal do, [create_pattern]
    makes exactly one call, the one for its record, and ends in one of
    two ways.  Either it returns a boolean, having printed exactly one
    text: the confirmation, a rejection or an error line for its record.
    Or it raises an [Exception], having printed nothing: then the
    terminal has turned down an error line for this record, and what is
    raised is what that [print] raised. *)
Theorem create_pattern_outcomes (b c : string) (p : pattern) (w : world) :
  posted (snd (create b c p w)) = app (posted w) [ pattern_call b c p ]
  /\ ((exists (created : bool) (text : string),
          create b c p w
          = (Returns created,
             log_line text (log_post (pattern_call b c p) w))
          /\ (text = "  Created: " ++ name p
              \/ (exists error,
                     text = "  Failed: " ++ name p ++ " - " ++ error)
              \/ (exists msg, text = "  Error: " ++ name p ++ " - " ++ msg)))
      \/ (exists msg failure : string,
             create b c p w
             = (Raises (PyException failure),
                log_post (pattern_call b c p) w)
             /\ terminal w (stdout w)
                  ("  Error: " ++ name p ++ " - " ++ msg) = Some failure)).
Proof.
  split; [apply create_pattern_posted |].
  exact (create_pattern_cases repr_str repr_float b c p w).
Qed.

(** X3.  The result and the console agree: [create_pattern] returns
    [True] exactly when what it has added to the console is the
    confirmation ["  Created: <name>"]; and whenever it returns, its
    result is [True] exactly when the last text on the console is that
    confirmation. *)
Theorem result_agrees_with_line (b c : string) (p : pattern) (w : world) :
  (fst (create b c p w) = Returns true
   <-> stdout (snd (create b c p w))
       = app (stdout w) [ "  Created: " ++ name p ])
  /\ (forall created : bool,
         fst (create b c p w) = Returns created ->
         (created = true
          <-> last (stdout (snd (create b c p w))) ""
              = "  Created: " ++ name p)).
Proof.
  rewrite create_pattern_run.
  destruct (delivered (terminal w) (stdout w) (name p)
              (verdict (network w (posted w) (pattern_call b c p))))
    as [rep | failure]; cbn [fst snd log_line log_post stdout].
  - rewrite last_last.
    destruct (counted rep) eqn:Hcounted.
    + destruct rep; try discriminate Hcounted. cbn [report_line].
      split; [split; reflexivity |].
      intros created Hc. injection Hc as <-. split; reflexivity.
    + pose proof (created_line_differs (name p) rep Hcounted) as Hdiff.
      split.
      * split; intro H; [discriminate H |].
        apply app_inv_head in H. injection H as H. now elim Hdiff.
      * intros created Hc. injection Hc as <-.
        split; intro H; [discriminate H | now elim Hdiff].
  - split.
    + split; intro H; [discriminate H |].
      rewrite <- (app_nil_r (stdout w)) in H at 1.
      apply app_inv_head in H. discriminate H.
    + intros created Hc. discriminate Hc.
Qed.

Lemma py_truthy_false (v : py_value) :
  py_truthy v = false
  <-> (v = PyNone \/ v = PyBool false \/ v = PyInt 0
       \/ (exists sign, v = PyFloat (S754_zero sign))
       \/ v = PyStr "" \/ v = PyList [] \/ v = PyDict []).
Proof.
  split.
  - destruct v as [| flag | z | x | s | items | items]; cbn [py_truthy];
      intro H.
    + now left.
    + right; left. now rewrite H.
    + right; right; left. apply negb_false_iff, Z.eqb_eq in H. now rewrite H.
    + right; right; right; left.
      destruct x as [sign | sign | | sign m e]; try discriminate H.
      now exists sign.
    + right; right; right; right; left.
      apply negb_false_iff, String.eqb_eq in H. now rewrite H.
    + right; right; right; right; right; left.
      destruct items; [reflexivity | discriminate H].
    + right; right; right; right; right; right.
      destruct items; [reflexivity | discriminate H].
  - intros [-> | [-> | [-> | [[sign ->] | [-> | [-> | ->]]]]]]; reflexivity.
Qed.

(** X4.  For a body that decodes to an object, whenever
    [create_pattern] returns, on a terminal that takes the
    confirmation, the record fails exactly when [data.get("success")] is
    one of Python's false values: [None] (the key missing, or null),
    [False], [0], a float zero, the empty string, the empty list or the
    empty object.  Anything else under ["success"], the string
    ["false"] included, counts as created.  On any terminal, a false
    value there is never counted as created. *)
Theorem failure_values_of_success (b c : string) (p : pattern) (w : world)
    (status : Z) (items : list (string * py_value)) :
  network w (posted w) (pattern_call b c p)
  = json_answer status (PyDict items) ->
  (forall created : bool,
      fst (create b c p w) = Returns created ->
      terminal w (stdout w) ("  Created: " ++ name p) = None ->
      (created = false
       <-> (dict_get items "success" PyNone = PyNone
            \/ dict_get items "success" PyNone = PyBool false
            \/ dict_get items "success" PyNone = PyInt 0
            \/ (exists sign,
                   dict_get items "success" PyNone
                   = PyFloat (S754_zero sign))
            \/ dict_get items "success" PyNone = PyStr ""
            \/ dict_get items "success" PyNone = PyList []
            \/ dict_get items "success" PyNone = PyDict [])))
  /\ ((dict_get items "success" PyNone = PyNone
       \/ dict_get items "success" PyNone = PyBool false
       \/ dict_get items "success" PyNone = PyInt 0
       \/ (exists sign,
              dict_get items "success" PyNone = PyFloat (S754_zero sign))
       \/ dict_get items "success" PyNone = PyStr ""
       \/ dict_get items "success" PyNone = PyList []
       \/ dict_get items "success" PyNone = PyDict []) ->
      fst (create b c p w) <> Returns true).
Proof.
  intro Hnet. rewrite create_pattern_run, Hnet.
  unfold json_answer, report_of, delivered. cbn [json_method].
  destruct (py_truthy (dict_get items "success" PyNone)) eqn:Htruth;
    cbn [report_line]; split.
  - intros created Hc Htaken. rewrite Htaken in Hc. cbn in Hc.
    injection Hc as <-.
    split; intro H; [discriminate H |].
    apply py_truthy_false in H. rewrite Htruth in H. discriminate H.
  - intro H. apply py_truthy_false in H. rewrite Htruth in H.
    discriminate H.
  - intros created Hc _.
    assert (Hfalse : created = false).
    { destruct (terminal w (stdout w) _) as [failure |];
        [destruct (terminal w (stdout w) _) |];
        cbn in Hc; try discriminate Hc; now injection Hc as <-. }
    split; [intros _; apply py_truthy_false; exact Htruth
           | intros _; exact Hfalse].
  - intros _.
    destruct (terminal w (stdout w) _) as [failure |];
      [destruct (terminal w (stdout w) _) |]; cbn; discriminate.
Qed.

(** X5.  The fallback text is for a missing key only: when the object
    has ["error"] with the value null, the line ends in [None], not in
    [Unknown error]. *)
Theorem null_error_prints_None (b c : string) (p : pattern) (w : world)
    (status : Z) (items : list (string * py_value)) :
  network w (posted w) (pattern_call b c p)
  = json_answer status (PyDict items) ->
  py_truthy (dict_get items "success" PyNone) = false ->
  dict_has items "error" = true ->
  dict_get items "error" PyNone = PyNone ->
  terminal w (stdout w) ("  Failed: " ++ name p ++ " - None") = None ->
  stdout (snd (create b c p w))
  = app (stdout w) [ "  Failed: " ++ name p ++ " - None" ].
Proof.
  intros Hnet Hfalsy Hhas Hnull Htaken.
  assert (Hrep : verdict (network w (posted w) (pattern_call b c p))
                 = Failed "None").
  { rewrite Hnet. unfold json_answer, report_of. cbn [json_method].
    rewrite Hfalsy.
    rewrite (dict_get_present items "error" (PyStr "Unknown error") PyNone
               Hhas).
    now rewrite Hnull. }
  rewrite create_pattern_printed; rewrite Hrep; [reflexivity | exact Htaken].
Qed.

Lemma seed_loop_split (b c : string) (first rest : list pattern) :
  forall (n : Z) (w : world),
    match loop b c first n w with
    | (Returns k, w1) => loop b c (first ++ rest)%list n w = loop b c rest k w1
    | (Raises e, w1) => loop b c (first ++ rest)%list n w = (Raises e, w1)
    end.
Proof.
  induction first as [| p first IH]; intros n w.
  - reflexivity.
  - cbn [app seed_loop]. unfold bind.
    destruct (create b c p w) as [[created | e] w']; [apply IH | reflexivity].
Qed.

(** X6.  The loop over a list in two parts is the loop over the first
    part followed by the loop over the second.  When the first part
    returns, the second starts with the counter and in the world the
    first ended with: by then exactly the calls for the first records
    have been added, in order, one text per record has been printed, the
    network and the terminal are those it started with, and the counter
    has grown by at most the number of those records.  When the first
    part raises, the whole loop raises the same, there and then.  And
    the first part does return when no [print] outside the [try]
    raises. *)
Theorem seed_loop_app (b c : string) (first rest : list pattern) (n : Z)
    (w : world) :
  (forall (k : Z) (w1 : world),
      loop b c first n w = (Returns k, w1) ->
      loop b c (first ++ rest)%list n w = loop b c rest k w1
      /\ posted w1 = app (posted w) (map (pattern_call b c) first)
      /\ network w1 = network w
      /\ terminal w1 = terminal w
      /\ List.length (stdout w1)
         = (List.length (stdout w) + List.length first)%nat
      /\ (n <= k <= n + len first)%Z)
  /\ (forall (e : py_exception) (w1 : world),
         loop b c first n w = (Raises e, w1) ->
         loop b c (first ++ rest)%list n w = (Raises e, w1))
  /\ (takes_outside_try w ->
      exists (k : Z) (w1 : world), loop b c first n w = (Returns k, w1)).
Proof.
  pose proof (seed_loop_split b c first rest n w) as Hsplit.
  split; [| split].
  - intros k w1 Hrun. rewrite Hrun in Hsplit.
    split; [exact Hsplit |].
    destruct (seed_loop_returned repr_str repr_float b c first n w k w1 Hrun)
      as (texts & -> & Hshape & Hk).
    cbn [extend posted network terminal stdout].
    rewrite length_app, <- (Forall2_length Hshape).
    repeat split; try reflexivity; lia.
  - intros e w1 Hrun. now rewrite Hrun in Hsplit.
  - apply seed_loop_contained.
Qed.



(** X9.  When argparse turns the command line down, the script makes
    no call and none of its [print] calls, and the process ends with
    argparse's own code, the flush at shutdown succeeding. *)
Theorem exit_status_from_command_line (w : world) (code : Z) :
  command_line w = ParseExits code ->
  flush_at_exit w (stdout w) = true ->
  fst (run repr_str repr_float w) = code
  /\ posted (snd (run repr_str repr_float w)) = posted w
  /\ stdout (snd (run repr_str repr_float w)) = stdout w.
Proof.
  intros Hcl Hflush. unfold run, run_on, main_on, bind, parse_args.
  rewrite Hcl. cbn [fst snd]. rewrite Hflush. repeat split.
Qed.

(** X10.  A [print] that raises inside the [try] is caught like any
    other exception: when the server has created the pattern but the
    terminal turns the confirmation down, the handler prints an error
    line with the message of the failed [print], if the terminal takes
    that one, and the record is not counted. *)
Theorem created_but_reported_as_error (b c : string) (p : pattern)
    (w : world) (status : Z) (items : list (string * py_value))
    (failure : string) :
  network w (posted w) (pattern_call b c p)
  = json_answer status (PyDict items) ->
  py_truthy (dict_get items "success" PyNone) = true ->
  terminal w (stdout w) ("  Created: " ++ name p) = Some failure ->
  terminal w (stdout w) ("  Error: " ++ name p ++ " - " ++ failure) = None ->
  create b c p w
  = (Returns false,
     log_line ("  Error: " ++ name p ++ " - " ++ failure)
       (log_post (pattern_call b c p) w)).
Proof.
  intros Hnet Htruthy Hfailed Htaken.
  rewrite create_pattern_run, Hnet.
  unfold json_answer, report_of, delivered. cbn [json_method].
  rewrite Htruthy. cbn [report_line]. now rewrite Hfailed, Htaken.
Qed.

Lemma seed_loop_posted_prefix (b c : string) (patterns : list pattern) :
  forall (n : Z) (w : world),
    exists j : nat,
      (j <= List.length patterns)%nat
      /\ posted (snd (loop b c patterns n w))
         = (posted w ++ firstn j (map (pattern_call b c) patterns))%list.
Proof.
  induction patterns as [| p rest IH]; intros n w.
  - exists 0%nat. cbn. now rewrite app_nil_r.
  - cbn [seed_loop]. unfold bind at 1. rewrite create_pattern_run.
    destruct (delivered (terminal w) (stdout w) (name p)
                (verdict (network w (posted w) (pattern_call b c p))))
      as [rep | failure].
    + match goal with
      | |- context [loop b c rest ?n' ?w'] =>
          destruct (IH n' w') as (j & Hj & Hposted)
      end.
      exists (S j). split; [cbn [List.length]; lia |].
      rewrite Hposted. cbn [log_line log_post posted map firstn].
      now rewrite <- app_assoc.
    + exists 1%nat. split; [cbn [List.length]; lia | reflexivity].
Qed.

(** X11.  However a run of [main] ends, returning or cut short by a
    [print] that raises, the calls it has made are the calls for the
    first records of the list, one each and in order: never a record
    twice, never one skipped, never more than the list has. *)
Theorem posts_are_a_prefix (patterns : list pattern) (args : namespace)
    (w : world) :
  command_line w = ParseReturns args ->
  exists j : nat,
    (j <= List.length patterns)%nat
    /\ posted (snd (main_over patterns w))
       = app (posted w)
           (firstn j
              (map (pattern_call (base_url args) (cookie args)) patterns)).
Proof.
  intro Hcl. unfold main_on, bind, parse_args. rewrite Hcl.
  unfold print at 1.
  destruct (terminal w (stdout w) _) as [failure |].
  { exists 0%nat. split; [lia | cbn; now rewrite app_nil_r]. }
  unfold print at 1.
  destruct (terminal _ _ "") as [failure |].
  { exists 0%nat. split; [lia | cbn; now rewrite app_nil_r]. }
  match goal with
  | |- context [loop ?b ?c patterns ?n ?w'] =>
      destruct (seed_loop_posted_prefix b c patterns n w')
        as (j & Hj & Hposted);
      destruct (loop b c patterns n w') as [[k | e] w1]
  end; cbn [snd log_line posted] in Hposted.
  - exists j. split; [exact Hj |].
    unfold print at 1.
    destruct (terminal w1 (stdout w1) "") as [failure |];
      [exact Hposted |].
    unfold print.
    cbn [log_line terminal stdout].
    destruct (terminal w1 _ _) as [failure |]; exact Hposted.
  - exists j. split; [exact Hj | exact Hposted].
Qed.

End Further.

(** ** The further properties at work *)

(** A body that is JSON [null]. *)
Lemma non_object_body_is_an_error_null :
  create_pattern quote_repr no_float_repr "http://localhost:3000"
    "session=abc" first_pattern
    (start (ParseReturns local_args) (always (json_answer 200 PyNone)))
  = (Returns false,
     {| command_line := ParseReturns local_args;
        network := always (json_answer 200 PyNone);
        terminal := fun _ _ => None; flush_at_exit := fun _ => true;
        posted := [ pattern_call "http://localhost:3000" "session=abc"
                      first_pattern ];
        stdout :=
          [ "  Error: All Red - 'NoneType' object has no attribute 'get'" ]
     |}).
Proof.
  apply (non_object_body_is_an_error quote_repr no_float_repr
           "http://localhost:3000" "session=abc" first_pattern
           (start (ParseReturns local_args) (always (json_answer 200 PyNone)))
           200%Z PyNone).
  - reflexivity.
  - intros items H. discriminate H.
  - reflexivity.
Defined.

(** After a rejection the last text is not the confirmation, and the
    result is not [True]. *)
Lemma result_agrees_with_line_duplicate :
  fst (create_pattern quote_repr no_float_repr "http://localhost:3000"
         "session=abc" first_pattern
         (start (ParseReturns local_args)
            (always (json_answer 200 duplicate))))
  = Returns false
  /\ (false = true
      <-> last (stdout (snd (create_pattern quote_repr no_float_repr
                               "http://localhost:3000" "session=abc"
                               first_pattern
                               (start (ParseReturns local_args)
                                  (always (json_answer 200 duplicate))))))
               ""
          = "  Created: All Red").
Proof.
  split; [reflexivity |].
  apply (proj2 (result_agrees_with_line quote_repr no_float_repr
                  "http://localhost:3000" "session=abc" first_pattern
                  (start (ParseReturns local_args)
                     (always (json_answer 200 duplicate))))
           false).
  reflexivity.
Defined.

(** [{"success": "false"}] does not fail. *)
Lemma failure_values_of_success_false_string :
  fst (create_pattern quote_repr no_float_repr "http://localhost:3000"
         "session=abc" first_pattern
         (start (ParseReturns local_args)
            (always (json_answer 200
                       (PyDict [ ("success", PyStr "false") ])))))
  <> Returns false.
Proof.
  intro Hreturned.
  pose proof (proj1
                (proj1 (failure_values_of_success quote_repr no_float_repr
                          "http://localhost:3000" "session=abc" first_pattern
                          (start (ParseReturns local_args)
                             (always (json_answer 200
                                        (PyDict
                                           [ ("success", PyStr "false") ]))))
                          200%Z [ ("success", PyStr "false") ] eq_refl)
                   false Hreturned eq_refl)
                eq_refl) as H.
  cbn in H.
  destruct H as [H | [H | [H | [[sign H] | [H | [H | H]]]]]]; discriminate H.
Defined.

(** [{"success": false, "error": null}]. *)
Lemma null_error_prints_None_first :
  stdout (snd (create_pattern quote_repr no_float_repr
                 "http://localhost:3000" "session=abc" first_pattern
                 (start (ParseReturns local_args)
                    (always (json_answer 200
                               (PyDict [ ("success", PyBool false);
                                         ("error", PyNone) ]))))))
  = [ "  Failed: All Red - None" ].
Proof.
  apply (null_error_prints_None quote_repr no_float_repr
           "http://localhost:3000" "session=abc" first_pattern
           (start (ParseReturns local_args)
              (always (json_answer 200
                         (PyDict [ ("success", PyBool false);
                                   ("error", PyNone) ]))))
           200%Z [ ("success", PyBool false); ("error", PyNone) ]);
    reflexivity.
Defined.

(** On the ASCII terminal the loop over the first record raises, and so
    does the loop over the five. *)
Lemma seed_loop_app_cut_short :
  seed_loop quote_repr no_float_repr "http://localhost:3000" "session=abc"
    ([ first_pattern ] ++ tl TEST_PATTERNS)%list 0%Z
    (ascii_start (ParseReturns local_args) (always (PostRaises refusee)))
  = (Raises
       (PyException
          ("'ascii' codec can't encode character '\xe9' in position 34"
             ++ ": ordinal not in range(128)")),
     {| command_line := ParseReturns local_args;
        network := always (PostRaises refusee);
        terminal := ascii_strict; flush_at_exit := fun _ => true;
        posted := [ pattern_call "http://localhost:3000" "session=abc"
                      first_pattern ];
        stdout := [] |}).
Proof.
  apply (proj1 (proj2
           (seed_loop_app quote_repr no_float_repr "http://localhost:3000"
              "session=abc" [ first_pattern ] (tl TEST_PATTERNS) 0%Z
              (ascii_start (ParseReturns local_args)
                 (always (PostRaises refusee)))))).
  reflexivity.
Defined.



(** A usage error: status 2, no call. *)
Lemma exit_status_from_command_line_usage :
  fst (run quote_repr no_float_repr
         (start (ParseExits 2) (always (PostRaises "timed out"))))
  = 2%Z
  /\ posted (snd (run quote_repr no_float_repr
                    (start (ParseExits 2) (always (PostRaises "timed out")))))
     = [].
Proof.
  destruct (exit_status_from_command_line quote_repr no_float_repr
              (start (ParseExits 2) (always (PostRaises "timed out")))
              2%Z eq_refl eq_refl)
    as (Hcode & Hposted & _).
  split; [exact Hcode | exact Hposted].
Defined.

(** The server has created the pattern; the stream could not take the
    confirmation just then; the console shows an error. *)
Lemma created_but_reported_as_error_busy :
  create_pattern quote_repr no_float_repr "http://localhost:3000"
    "session=abc" first_pattern
    (on_terminal
       (chokes_on "  Created: All Red"
          "[Errno 11] write could not complete without blocking")
       (start (ParseReturns local_args)
          (always (json_answer 201 success_true))))
  = (Returns false,
     {| command_line := ParseReturns local_args;
        network := always (json_answer 201 success_true);
        terminal :=
          chokes_on "  Created: All Red"
            "[Errno 11] write could not complete without blocking";
        flush_at_exit := fun _ => true;
        posted := [ pattern_call "http://localhost:3000" "session=abc"
                      first_pattern ];
        stdout :=
          [ "  Error: All Red - [Errno 11] write could not complete "
              ++ "without blocking" ] |}).
Proof.
  apply (created_but_reported_as_error quote_repr no_float_repr
           "http://localhost:3000" "session=abc" first_pattern
           (on_terminal
              (chokes_on "  Created: All Red"
                 "[Errno 11] write could not complete without blocking")
              (start (ParseReturns local_args)
                 (always (json_answer 201 success_true))))
           201%Z [ ("success", PyBool true) ]
           "[Errno 11] write could not complete without blocking");
    reflexivity.
Defined.

(** Cut short after the first call on the ASCII terminal: the calls
    made are the first of the list. *)
Lemma posts_are_a_prefix_cut_short :
  exists j : nat,
    (j <= 5)%nat
    /\ posted (snd (main_on quote_repr no_float_repr TEST_PATTERNS
                      (ascii_start (ParseReturns local_args)
                         (always (PostRaises refusee)))))
       = firstn j
           (map (pattern_call "http://localhost:3000" "session=abc")
              TEST_PATTERNS).
Proof.
  exact (posts_are_a_prefix quote_repr no_float_repr TEST_PATTERNS
           local_args
           (ascii_start (ParseReturns local_args)
              (always (PostRaises refusee)))
           eq_refl).
Defined.
